(** * Superdense coding notebook: shallow embedding and verification

    The notebook [superdense_coding.ipynb] builds a Bell pair on a two-qubit
    Qiskit circuit, lets Alice encode a two-bit message on her qubit
    ([encode_message]) and lets Bob decode it ([decode_message]).

    The definitions come first:
    - [Amplitude], [Gates]: the two-qubit state vector and the gate library;
    - [Circuit], [Python]: the circuit object, the store of Python objects and
      the state-and-exception monad in which the notebook's functions run;
    - [Simulator]: execution, sampling and the counts table;
    - [Notebook]: [encode_message], [decode_message] and the final cell,
      translated line by line.
    The lemmas follow in [GateFacts], [CountsFacts] and [NotebookFacts], and
    the properties of the specification in [Properties].

    Amplitudes are exact: complex numbers over the reals. The statements
    about the simulator are those of an ideal, noiseless simulation. *)

From Stdlib Require Import Reals Lra Lia Ascii String.
From stdpp Require Import gmap strings list fin_maps.

(* ===================================================================== *)
(** ** Complex amplitudes *)
(* ===================================================================== *)

Module Amplitude.

(** A complex number, as a real and an imaginary part. *)
Record C : Type := mkC { Re : R; Im : R }.

Definition C0 : C := mkC 0 0.
Definition C1 : C := mkC 1 0.

Definition Cadd (a b : C) : C := mkC (Re a + Re b) (Im a + Im b).
Definition Csub (a b : C) : C := mkC (Re a - Re b) (Im a - Im b).
Definition Copp (a : C) : C := mkC (- Re a) (- Im a).
(** Multiplication by a real scalar: every gate matrix of the notebook is real. *)
Definition Cscale (r : R) (a : C) : C := mkC (r * Re a) (r * Im a).
(** Squared magnitude |a|^2. *)
Definition Cnorm2 (a : C) : R := (Re a * Re a + Im a * Im a)%R.

(** Product and conjugate, for the inner product of two state vectors. *)
Definition Cmul (a b : C) : C :=
  mkC (Re a * Re b - Im a * Im b) (Re a * Im b + Im a * Re b).
Definition Cconj (a : C) : C := mkC (Re a) (- Im a).

(** The constant 1/sqrt 2 of the Hadamard matrix. *)
Definition inv_sqrt2 : R := (/ sqrt 2)%R.

End Amplitude.

(* ===================================================================== *)
(** ** State vector and gate library *)
(* ===================================================================== *)

Module Gates.
Import Amplitude.

(** The amplitude vector of two qubits: one amplitude per basis state.
    Basis index [i] stands for the ket |q1 q0> with [i = 2*q1 + q0]
    (qubit 0 is the least significant bit). *)
Record StateVector : Type := mkState { amp0 : C; amp1 : C; amp2 : C; amp3 : C }.

Definition get (s : StateVector) (i : nat) : C :=
  match i with
  | 0 => amp0 s
  | 1 => amp1 s
  | 2 => amp2 s
  | 3 => amp3 s
  | _ => C0
  end.

Definition build (f : nat -> C) : StateVector := mkState (f 0) (f 1) (f 2) (f 3).

(** The all-zero basis state |00>. *)
Definition zero_state : StateVector := mkState C1 C0 C0 C0.


(** Bit [q] of basis index [i], and the index that differs from [i] only in
    bit [q]. *)
Definition bit (i q : nat) : bool := Nat.testbit i q.
Definition flip (i q : nat) : nat := Nat.lxor i (Nat.shiftl 1 q).

(** Modelled from the spec: the Qiskit simulator's gate application is not in
    the notebook; section 4.1 gives the matrices
    H = (1/sqrt 2) [[1,1],[1,-1]], X = [[0,1],[1,0]], Z = [[1,0],[0,-1]]
    and the index-based method: iterate over the pairs of basis states that
    differ only in bit [q] and apply the 2x2 transform to each pair. *)
Definition apply_h (q : nat) (s : StateVector) : StateVector :=
  build (fun i =>
    if bit i q
    then Cscale inv_sqrt2 (Csub (get s (flip i q)) (get s i))
    else Cscale inv_sqrt2 (Cadd (get s i) (get s (flip i q)))).

Definition apply_x (q : nat) (s : StateVector) : StateVector :=
  build (fun i => get s (flip i q)).

Definition apply_z (q : nat) (s : StateVector) : StateVector :=
  build (fun i => if bit i q then Copp (get s i) else get s i).

(** Modelled from the spec: CNOT(control, target), section 4.1: for every
    basis state where the control bit is 1, swap the amplitudes of the two
    basis states that differ only in the target bit; leave the others. *)
Definition apply_cx (c t : nat) (s : StateVector) : StateVector :=
  build (fun i => if bit i c then get s (flip i t) else get s i).

(** Sum of the squared magnitudes of the four amplitudes. *)
Definition norm2 (s : StateVector) : R :=
  (Cnorm2 (amp0 s) + Cnorm2 (amp1 s) + Cnorm2 (amp2 s) + Cnorm2 (amp3 s))%R.

(** Probability of measuring basis state [i]. *)
Definition prob (s : StateVector) (i : nat) : R := Cnorm2 (get s i).

(** Inner product <s|t>: the sum of conj(s_i) * t_i over the basis states. *)
Definition inner (s t : StateVector) : C :=
  Cadd (Cadd (Cadd (Cmul (Cconj (amp0 s)) (amp0 t))
                   (Cmul (Cconj (amp1 s)) (amp1 t)))
             (Cmul (Cconj (amp2 s)) (amp2 t)))
       (Cmul (Cconj (amp3 s)) (amp3 t)).

End Gates.

(* ===================================================================== *)
(** ** Circuits *)
(* ===================================================================== *)

Module Circuit.

(** A gate operation of the circuit (spec section 3). The constructors carry
    Qiskit's class names. *)
Inductive Instruction : Type :=
| HGate (q : nat)
| XGate (q : nat)
| ZGate (q : nat)
| CXGate (control target : nat)
| Measure (qubits clbits : list nat).

(** [QuantumCircuit(n, m)]: declared qubit and classical-bit counts and the
    ordered, append-only list of operations ([qc.data]). *)
Record QuantumCircuit : Type :=
  mkCircuit { num_qubits : nat; num_clbits : nat; data : list Instruction }.

Definition append (op : Instruction) (c : QuantumCircuit) : QuantumCircuit :=
  mkCircuit (num_qubits c) (num_clbits c) (data c ++ [op]).

(** The circuit with the operations [ops] appended, in order. *)
Definition extend (ops : list Instruction) (c : QuantumCircuit) : QuantumCircuit :=
  mkCircuit (num_qubits c) (num_clbits c) (data c ++ ops).

(** Number of operations of the circuit. *)
Definition gate_count (c : QuantumCircuit) : nat := length (data c).

(** An operation is well formed for a circuit when every index it mentions
    is below the declared count, a CNOT has two different qubits, and a
    measurement binds as many qubits as classical slots. *)
Definition wf_instruction (nq nc : nat) (op : Instruction) : bool :=
  match op with
  | HGate q | XGate q | ZGate q => q <? nq
  | CXGate c t => (c <? nq) && (t <? nq) && negb (c =? t)
  | Measure qs cs =>
      forallb (fun q => q <? nq) qs && forallb (fun c => c <? nc) cs
      && (length qs =? length cs)
  end.

Definition is_measure (op : Instruction) : bool :=
  match op with Measure _ _ => true | _ => false end.

End Circuit.

(* ===================================================================== *)
(** ** The Python store and its monad *)
(* ===================================================================== *)

Module Python.
Import Circuit.

(** Exceptions. The notebook raises the builtin [Exception] with a message;
    [CircuitError] and [QiskitError] are the library's. *)
Inductive PyExc : Type :=
| Exception (msg : string)
| CircuitError (msg : string)
| QiskitError (msg : string)
| ReferenceError.

(** The length-validation failure of [encode_message], under the name the
    specification gives it. *)
Definition InvalidMessageLength : PyExc :=
  Exception "Error - message of incorrect length has been passed!".

Inductive Outcome (A : Type) : Type :=
| Return (a : A)
| Raise (e : PyExc).
Arguments Return {A} a.
Arguments Raise {A} e.

(** Circuit objects live in a store and are passed by reference. *)
Definition ref : Type := positive.
Abbreviation store := (gmap ref QuantumCircuit).

(** A Python computation: it reads and updates the store and either returns a
    value or raises. Updates made before a raise stay. *)
Definition Py (A : Type) : Type := store -> Outcome A * store.

Definition ret {A} (a : A) : Py A := fun h => (Return a, h).
Definition raise {A} (e : PyExc) : Py A := fun h => (Raise e, h).
Definition bind {A B} (m : Py A) (k : A -> Py B) : Py B :=
  fun h =>
    match m h with
    | (Return a, h') => k a h'
    | (Raise e, h') => (Raise e, h')
    end.

Declare Scope py_scope.
Delimit Scope py_scope with py.
Notation "x <- m ;; k" := (bind m (fun x => k))
  (at level 100, m at next level, right associativity) : py_scope.
Notation "m ;; k" := (bind m (fun _ => k))
  (at level 100, right associativity) : py_scope.
Local Open Scope py_scope.

(** [None], the value of a function that ends without [return]. *)
Definition PyNone : Type := unit.
Definition None_ : PyNone := tt.

(** Read the object behind a reference. A reference of a running Python
    program always points to an object; [ReferenceError] stands for the
    other case. *)
Definition deref (qc : ref) : Py QuantumCircuit :=
  fun h =>
    match h !! qc with
    | Some c => (Return c, h)
    | None => (Raise ReferenceError, h)
    end.

(** [QuantumCircuit(nq, nc)]: a new object at a fresh reference. *)
Definition new_circuit (nq nc : nat) : Py ref :=
  fun h => let l := fresh (dom h) in (Return l, <[l := mkCircuit nq nc []]> h).

(** Modelled from the spec: the circuit builder (section 4.2) is Qiskit's;
    an operation whose indices are outside the declared range fails at
    append time, otherwise it is appended to the object in place. *)
Definition qc_append (qc : ref) (op : Instruction) : Py PyNone :=
  c <- deref qc ;;
  if wf_instruction (num_qubits c) (num_clbits c) op
  then fun h => (Return None_, <[qc := append op c]> h)
  else raise (CircuitError "Index out of range.").

Definition qc_h (qc : ref) (q : nat) : Py PyNone := qc_append qc (HGate q).
Definition qc_x (qc : ref) (q : nat) : Py PyNone := qc_append qc (XGate q).
Definition qc_z (qc : ref) (q : nat) : Py PyNone := qc_append qc (ZGate q).
Definition qc_cx (qc : ref) (c t : nat) : Py PyNone := qc_append qc (CXGate c t).
Definition qc_measure (qc : ref) (qs cs : list nat) : Py PyNone :=
  qc_append qc (Measure qs cs).

End Python.

(* ===================================================================== *)
(** ** The simulator: execution, sampling, counts *)
(* ===================================================================== *)

Module Simulator.
Import Amplitude Gates Circuit Python.

(** The counts table: a dictionary from bitstring to number of occurrences. *)
Abbreviation Counts := (gmap string nat).

(** The number of shots of [sim.run(qc)] when none is given. *)
Definition default_shots : nat := 1024.

(** Apply one gate operation to the state vector. *)
Definition apply_gate (op : Instruction) (s : StateVector) : StateVector :=
  match op with
  | HGate q => apply_h q s
  | XGate q => apply_x q s
  | ZGate q => apply_z q s
  | CXGate c t => apply_cx c t s
  | Measure _ _ => s
  end.

(** The state after the operations [ops], applied in circuit order. *)
Definition evolve (ops : list Instruction) (s : StateVector) : StateVector :=
  fold_left (fun st g => apply_gate g st) ops s.

(** A unitary gate of the two-qubit register: H, X, Z on qubit 0 or 1, or a
    CNOT between the two. *)
Definition unitary_gate (g : Instruction) : bool :=
  negb (is_measure g) && wf_instruction 2 0 g.

(** The states a circuit can reach from |00>. *)
Inductive reachable : StateVector -> Prop :=
| reach_init : reachable zero_state
| reach_gate s g :
    reachable s -> unitary_gate g = true -> reachable (apply_gate g s).

(** Modelled from the spec: execution (section 4.4) runs every gate before
    the measurement in circuit order, starting from a fresh state vector;
    the lifecycle is Built, Running, Measured, with no way back: nothing may
    follow the measurement, and a circuit with no measurement has no counts.
    The result is the final state vector and the measurement's bindings. *)
Fixpoint execute (s : StateVector) (ops : list Instruction)
  : option (StateVector * list nat * list nat) :=
  match ops with
  | [] => None
  | Measure qs cs :: rest =>
      match rest with
      | [] => Some (s, qs, cs)
      | _ :: _ => None
      end
  | g :: rest => execute (apply_gate g s) rest
  end.

(** Modelled from the spec: one shot draws a basis-state index with
    probability equal to the squared magnitude of its amplitude. [u] is the
    uniform draw from [0,1) that decides the shot. *)
Definition sample (s : StateVector) (u : R) : nat :=
  if Rlt_dec u (prob s 0) then 0
  else if Rlt_dec u (prob s 0 + prob s 1) then 1
  else if Rlt_dec u (prob s 0 + prob s 1 + prob s 2) then 2
  else 3.

(** The classical register after measuring basis state [k]: slot [c] takes
    the bit of qubit [q] for every bound pair; the other slots stay 0. *)
Fixpoint store_bits (k : nat) (qs cs : list nat) (creg : list bool) : list bool :=
  match qs, cs with
  | q :: qs', c :: cs' => store_bits k qs' cs' (<[c := bit k q]> creg)
  | _, _ => creg
  end.

Definition bit_char (b : bool) : ascii := if b then "1"%char else "0"%char.

Fixpoint string_of_bits (l : list bool) : string :=
  match l with
  | [] => EmptyString
  | b :: l' => String (bit_char b) (string_of_bits l')
  end.

(** The key of a shot in the counts table: the classical register written
    with the highest slot first (Qiskit's convention: slot 0 is the
    rightmost character). *)
Definition bitstring (nc : nat) (qs cs : list nat) (k : nat) : string :=
  string_of_bits (rev (store_bits k qs cs (replicate nc false))).

(** Count one more occurrence of [key]. *)
Definition tally (key : string) (m : Counts) : Counts :=
  <[key := S (default 0 (m !! key))]> m.

(** The table after shots [0 .. n-1]. *)
Fixpoint tally_shots (n : nat) (outcome : nat -> string) : Counts :=
  match n with
  | 0 => ∅
  | S n' => tally (outcome n') (tally_shots n' outcome)
  end.


(** [sim.run(qc, shots=...).result().get_counts()] on a circuit value.
    [rng i] is the uniform draw of shot [i]. The simulator modelled here
    holds the state of two qubits. *)
Definition run (c : QuantumCircuit) (shots : option nat) (rng : nat -> R)
  : Outcome Counts :=
  if negb (num_qubits c =? 2) then Raise (QiskitError "Unsupported number of qubits.")
  else
    match execute zero_state (data c) with
    | Some (s, qs, cs) =>
        Return (tally_shots (default default_shots shots)
                  (fun i => bitstring (num_clbits c) qs cs (sample s (rng i))))
    | None => Raise (QiskitError "No counts for experiment.")
    end.

(** A circuit the simulator accepts: two qubits, well-formed gates, and
    exactly one measurement, at the end. *)
Definition valid_circuit (c : QuantumCircuit) : bool :=
  (num_qubits c =? 2)
  && forallb (wf_instruction (num_qubits c) (num_clbits c)) (data c)
  && match rev (data c) with
     | Measure _ _ :: gates => forallb (fun op => negb (is_measure op)) gates
     | _ => false
     end.

End Simulator.

(* ===================================================================== *)
(** ** The notebook *)
(* ===================================================================== *)

Module Notebook.
Import Amplitude Gates Circuit Python Simulator.
Local Open Scope py_scope.

(** Cell 4: "We give the left qubit to Alice and the right one to Bob."
    In the ket |q1 q0> the left qubit is qubit 1; [encode_message], Alice's
    step, acts on qubit 1. *)
Definition alice : nat := 1.
Definition bob : nat := 0.

(** [message[i] == '1'] *)
Definition char_is_1 (message : string) (i : nat) : bool :=
  match String.get i message with
  | Some ch => if Ascii.ascii_dec ch "1"%char then true else false
  | None => false
  end.

(** Cell 5.
<<
def encode_message(qc, message):
    if len(message) != 2:
        raise Exception("Error - message of incorrect length has been passed!")
    if message[0] == '1':
        qc.z(1)
    if message[1] == '1':
        qc.x(1)
>> *)
Definition encode_message (qc : ref) (message : string) : Py PyNone :=
  if negb (String.length message =? 2)
  then raise (Exception "Error - message of incorrect length has been passed!")
  else
    (if char_is_1 message 0 then qc_z qc 1 else ret None_) ;;
    (if char_is_1 message 1 then qc_x qc 1 else ret None_) ;;
    ret None_.

(** The four messages of the protocol. *)
Definition valid_messages : list string := ["00"; "01"; "10"; "11"].

(** The basis state |q1 q0> that spells the message: q1 is its first
    character and q0 its second. *)
Definition message_index (message : string) : nat :=
  (if char_is_1 message 0 then 2 else 0) + (if char_is_1 message 1 then 1 else 0).

(** The operations of the Bell preparation of cells 3 and 9. *)
Definition bell_ops : list Instruction := [HGate 1; CXGate 1 0].

(** The gates [encode_message] appends for a two-character message: a
    character other than '1' selects no gate. *)
Definition encoding_ops (message : string) : list Instruction :=
  (if char_is_1 message 0 then [ZGate alice] else [])
  ++ (if char_is_1 message 1 then [XGate alice] else []).

(** The operations [decode_message] appends. *)
Definition decoding_ops : list Instruction :=
  [CXGate alice bob; HGate alice; Measure [0; 1] [0; 1]].

(** The decoding that the prose of cell 7 describes: Bob's original qubit as
    control and the qubit received from Alice as target, a Hadamard on Bob's
    original qubit. *)
Definition decoding_ops_prose : list Instruction :=
  [CXGate bob alice; HGate bob; Measure [0; 1] [0; 1]].


(** [sim = QasmSimulator(); job = sim.run(qc); result = job.result();
    result.get_counts()]: the simulator reads the circuit object. *)
Definition sim_run (qc : ref) (shots : option nat) (rng : nat -> R) : Py Counts :=
  c <- deref qc ;;
  fun h => (run c shots rng, h).

(** Cell 8.
<<
def decode_message(qc):
    qc.cx(1, 0)
    qc.h(1)
    qc.measure([0, 1], [0, 1])
    sim = QasmSimulator()
    job = sim.run(qc)
    result = job.result()
    return result.get_counts()
>> *)
Definition decode_message (rng : nat -> R) (qc : ref) : Py Counts :=
  qc_cx qc 1 0 ;;
  qc_h qc 1 ;;
  qc_measure qc [0; 1] [0; 1] ;;
  sim_run qc None rng.

(** Cells 3 and 9: the entangled pair.
<<
qc = QuantumCircuit(2, 2)
qc.h(1)
qc.cx(1, 0)
>> *)
Definition bell_circuit : Py ref :=
  qc <- new_circuit 2 2 ;;
  qc_h qc 1 ;;
  qc_cx qc 1 0 ;;
  ret qc.

(** Modelled from the spec: [Statevector(qc)] is Qiskit's; section 4.4: the
    state vector of a circuit is obtained by running its gates in circuit
    order from the all-zero basis state. *)
Definition Statevector (qc : ref) : Py StateVector :=
  c <- deref qc ;;
  ret (evolve (data c) zero_state).

(** Cell 3.
<<
qc = QuantumCircuit(2, 2)
qc.h(1)
qc.cx(1, 0)

initial_state = Statevector(qc)
>> *)
Definition initial_state : Py StateVector :=
  qc <- bell_circuit ;;
  Statevector qc.

(** Cell 9: the full program, for a given message.
<<
encode_message(qc, message)
result = decode_message(qc)
>> *)
Definition full_program (message : string) (rng : nat -> R) : Py Counts :=
  qc <- bell_circuit ;;
  encode_message qc message ;;
  decode_message rng qc.

End Notebook.

(* ===================================================================== *)
(** ** Properties of the gate library *)
(* ===================================================================== *)

Module GateFacts.
Import Amplitude Gates Circuit Simulator.

Lemma inv_sqrt2_sqr : (inv_sqrt2 * inv_sqrt2 = 1 / 2)%R.
Proof.
  unfold inv_sqrt2.
  assert (Hs : (sqrt 2 * sqrt 2 = 2)%R) by (apply sqrt_sqrt; lra).
  rewrite <- Rinv_mult, Hs. lra.
Qed.

Lemma inv_sqrt2_pow2 : (inv_sqrt2 ^ 2 = 1 / 2)%R.
Proof. rewrite <- inv_sqrt2_sqr. ring. Qed.

Lemma inv_sqrt2_pow4 : (inv_sqrt2 ^ 4 = 1 / 4)%R.
Proof.
  replace (inv_sqrt2 ^ 4)%R with ((inv_sqrt2 ^ 2) * (inv_sqrt2 ^ 2))%R by ring.
  rewrite inv_sqrt2_pow2. lra.
Qed.

Lemma C_eq (a b : C) : Re a = Re b -> Im a = Im b -> a = b.
Proof. destruct a, b; simpl; intros -> ->; reflexivity. Qed.

(** Real-number goals in which 1/sqrt 2 occurs only through its square. *)
Ltac solve_real :=
  simpl; try lra;
  ring_simplify; rewrite ?inv_sqrt2_pow4, ?inv_sqrt2_pow2;
  try lra; try (field_simplify; lra).

Ltac solve_state := f_equal; apply C_eq; solve_real.

(** Case analysis on a qubit index of the two-qubit register. *)
Ltac qubit_cases q H :=
  destruct q as [|[|q]]; [ | | exfalso; simpl in H; lia ].


Lemma apply_cx_involutive c t s :
  c < 2 -> t < 2 -> c <> t -> apply_cx c t (apply_cx c t s) = s.
Proof.
  intros Hc Ht Hne.
  destruct s as [a0 a1 a2 a3].
  qubit_cases c Hc; qubit_cases t Ht; try congruence; reflexivity.
Qed.

Lemma norm2_apply_h q s : q < 2 -> norm2 (apply_h q s) = norm2 s.
Proof.
  intros Hq.
  destruct s as [[r0 i0] [r1 i1] [r2 i2] [r3 i3]].
  qubit_cases q Hq; unfold apply_h, build, norm2, Cnorm2; solve_real.
Qed.

Lemma norm2_apply_x q s : q < 2 -> norm2 (apply_x q s) = norm2 s.
Proof.
  intros Hq. destruct s as [a0 a1 a2 a3].
  qubit_cases q Hq; unfold apply_x, build, norm2; simpl; lra.
Qed.

Lemma norm2_apply_z q s : q < 2 -> norm2 (apply_z q s) = norm2 s.
Proof.
  intros Hq.
  destruct s as [[r0 i0] [r1 i1] [r2 i2] [r3 i3]].
  qubit_cases q Hq; unfold apply_z, build, norm2, Cnorm2; simpl; lra.
Qed.

Lemma norm2_apply_cx c t s :
  c < 2 -> t < 2 -> c <> t -> norm2 (apply_cx c t s) = norm2 s.
Proof.
  intros Hc Ht Hne. destruct s as [a0 a1 a2 a3].
  qubit_cases c Hc; qubit_cases t Ht; try congruence;
    unfold apply_cx, build, norm2; simpl; lra.
Qed.

Lemma norm2_zero_state : norm2 zero_state = 1%R.
Proof. unfold norm2, Cnorm2; simpl; lra. Qed.

(** Every unitary gate preserves the norm. *)
Lemma norm2_apply_gate g s :
  unitary_gate g = true -> norm2 (apply_gate g s) = norm2 s.
Proof.
  unfold unitary_gate.
  destruct g as [q|q|q|c t|qs cs]; simpl; intros Hg; try discriminate.
  - apply norm2_apply_h. apply Nat.ltb_lt, Hg.
  - apply norm2_apply_x. apply Nat.ltb_lt, Hg.
  - apply norm2_apply_z. apply Nat.ltb_lt, Hg.
  - apply andb_prop in Hg as [Hg Hne]. apply andb_prop in Hg as [Hc Ht].
    apply Nat.ltb_lt in Hc, Ht. apply negb_true_iff, Nat.eqb_neq in Hne.
    apply norm2_apply_cx; assumption.
Qed.

Lemma reachable_norm2 s : reachable s -> norm2 s = 1%R.
Proof.
  induction 1 as [|s g _ IH Hg].
  - apply norm2_zero_state.
  - rewrite norm2_apply_gate by exact Hg. exact IH.
Qed.

End GateFacts.

(* ===================================================================== *)
(** ** Properties of the counts table *)
(* ===================================================================== *)

Module CountsFacts.
Import Amplitude Gates Circuit Python Simulator.





(** When every shot gives the same key, the table has that key only. *)
Lemma tally_shots_const n key :
  tally_shots (S n) (fun _ => key) = {[ key := S n ]}.
Proof.
  induction n as [|n IH].
  - simpl. unfold tally. rewrite lookup_empty. reflexivity.
  - change (tally_shots (S (S n)) (fun _ => key))
      with (tally key (tally_shots (S n) (fun _ => key))).
    rewrite IH. unfold tally. rewrite lookup_singleton_eq. simpl.
    apply insert_singleton_eq.
Qed.

Lemma tally_shots_ext n f g :
  (forall i, i < n -> f i = g i) -> tally_shots n f = tally_shots n g.
Proof.
  induction n as [|n IH]; intros Hfg; simpl; [reflexivity|].
  rewrite Hfg by lia. rewrite IH; [reflexivity|]. intros i Hi. apply Hfg. lia.
Qed.

(** A state vector with all its probability on basis state [k] is always
    measured as [k]. *)
Lemma sample_certain s k u :
  k < 4 -> (forall i, i < 4 -> prob s i = if i =? k then 1%R else 0%R) ->
  (0 <= u < 1)%R -> sample s u = k.
Proof.
  intros Hk Hp Hu. unfold sample.
  rewrite (Hp 0), (Hp 1), (Hp 2) by lia.
  destruct k as [|[|[|[|k]]]]; simpl; try lia;
    repeat (match goal with
            | |- context [Rlt_dec ?a ?b] => destruct (Rlt_dec a b); try lra
            end); reflexivity.
Qed.

(** A circuit made of gates and one final measurement runs to the end. *)
Lemma execute_gates_then_measure gates qs cs s :
  forallb (fun op => negb (is_measure op)) gates = true ->
  execute s (gates ++ [Measure qs cs])
  = Some (fold_left (fun st g => apply_gate g st) gates s, qs, cs).
Proof.
  revert s. induction gates as [|g gates IH]; intros s Hg; simpl in *.
  - reflexivity.
  - apply andb_prop in Hg as [Hg Hrest].
    destruct g; simpl in Hg; try discriminate; simpl; apply IH, Hrest.
Qed.


End CountsFacts.

(* ===================================================================== *)
(** ** Properties of the builder and of the notebook's functions *)
(* ===================================================================== *)

Module NotebookFacts.
Import Amplitude Gates Circuit Python Simulator Notebook GateFacts CountsFacts.
Local Open Scope py_scope.

Lemma extend_nil c : extend [] c = c.
Proof. destruct c as [nq nc ops]. unfold extend; simpl. by rewrite app_nil_r. Qed.

(** An in-range operation is appended to the object behind the reference. *)
Lemma qc_append_ok (h : store) qc c op :
  h !! qc = Some c ->
  wf_instruction (num_qubits c) (num_clbits c) op = true ->
  qc_append qc op h = (Return None_, <[qc := append op c]> h).
Proof.
  intros Hqc Hwf. unfold qc_append, bind, deref. rewrite Hqc, Hwf. reflexivity.
Qed.

(** An out-of-range operation raises and leaves the store as it was. *)
Lemma qc_append_fail (h : store) qc c op :
  h !! qc = Some c ->
  wf_instruction (num_qubits c) (num_clbits c) op = false ->
  qc_append qc op h = (Raise (CircuitError "Index out of range."), h).
Proof.
  intros Hqc Hwf. unfold qc_append, bind, deref. rewrite Hqc, Hwf. reflexivity.
Qed.

Lemma encode_message_ok (h : store) qc c message :
  h !! qc = Some c -> 2 <= num_qubits c -> String.length message = 2 ->
  encode_message qc message h
  = (Return None_, <[qc := extend (encoding_ops message) c]> h).
Proof.
  intros Hqc Hnq Hlen.
  assert (H1 : (1 <? num_qubits c) = true) by (apply Nat.ltb_lt; lia).
  unfold encode_message, encoding_ops. rewrite Hlen. simpl.
  unfold bind, qc_z, qc_x, ret.
  destruct (char_is_1 message 0), (char_is_1 message 1); simpl.
  - rewrite (qc_append_ok h qc c) by (simpl; auto).
    rewrite (qc_append_ok _ qc (append (ZGate 1) c))
      by (simpl; rewrite ?lookup_insert_eq; auto).
    rewrite insert_insert_eq. unfold append, extend; simpl.
    rewrite <- app_assoc. reflexivity.
  - rewrite (qc_append_ok h qc c) by (simpl; auto). reflexivity.
  - rewrite (qc_append_ok h qc c) by (simpl; auto). reflexivity.
  - rewrite extend_nil, insert_id by exact Hqc. reflexivity.
Qed.

Lemma decode_message_ok (h : store) qc c rng :
  h !! qc = Some c -> 2 <= num_qubits c -> 2 <= num_clbits c ->
  decode_message rng qc h
  = (run (extend decoding_ops c) None rng, <[qc := extend decoding_ops c]> h).
Proof.
  intros Hqc Hnq Hnc.
  assert (H1 : (1 <? num_qubits c) = true) by (apply Nat.ltb_lt; lia).
  assert (H0 : (0 <? num_qubits c) = true) by (apply Nat.ltb_lt; lia).
  assert (H1c : (1 <? num_clbits c) = true) by (apply Nat.ltb_lt; lia).
  assert (H0c : (0 <? num_clbits c) = true) by (apply Nat.ltb_lt; lia).
  unfold decode_message, decoding_ops, bind, qc_cx, qc_h, qc_measure, sim_run.
  rewrite (qc_append_ok h qc c) by (simpl; rewrite ?H1, ?H0; auto).
  rewrite (qc_append_ok _ qc (append (CXGate 1 0) c))
    by (simpl; rewrite ?lookup_insert_eq; auto).
  rewrite (qc_append_ok _ qc (append (HGate 1) (append (CXGate 1 0) c)))
    by (simpl; rewrite ?H1, ?H0, ?H1c, ?H0c, ?lookup_insert_eq; auto).
  rewrite !insert_insert_eq. unfold bind, deref. rewrite lookup_insert_eq.
  unfold append, extend; simpl. rewrite <- !app_assoc. reflexivity.
Qed.

Lemma bell_circuit_ok (h : store) :
  bell_circuit h
  = (Return (fresh (dom h)), <[fresh (dom h) := mkCircuit 2 2 bell_ops]> h).
Proof.
  unfold bell_circuit, bind, new_circuit, qc_h, qc_cx, ret. simpl.
  rewrite (qc_append_ok _ _ (mkCircuit 2 2 []))
    by (rewrite ?lookup_insert_eq; auto).
  rewrite (qc_append_ok _ _ (append (HGate 1) (mkCircuit 2 2 [])))
    by (rewrite ?lookup_insert_eq; auto).
  rewrite !insert_insert_eq. reflexivity.
Qed.

Lemma valid_message_length message :
  message ∈ valid_messages -> String.length message = 2.
Proof.
  unfold valid_messages. intros Hm.
  repeat (apply elem_of_cons in Hm as [->|Hm]; [reflexivity|]).
  by apply elem_of_nil in Hm.
Qed.

Lemma bitstring_message message :
  message ∈ valid_messages ->
  bitstring 2 [0; 1] [0; 1] (message_index message) = message.
Proof.
  unfold valid_messages. intros Hm.
  repeat (apply elem_of_cons in Hm as [->|Hm]; [reflexivity|]).
  by apply elem_of_nil in Hm.
Qed.

Lemma message_index_lt message : message_index message < 4.
Proof.
  unfold message_index.
  destruct (char_is_1 message 0), (char_is_1 message 1); lia.
Qed.

(** The state vector just before the measurement is the basis state that
    spells the message, up to sign. *)
Lemma decoded_state message :
  message ∈ valid_messages ->
  exists s,
    execute zero_state (bell_ops ++ encoding_ops message ++ decoding_ops)
    = Some (s, [0; 1], [0; 1])
    /\ forall i, i < 4 ->
         prob s i = if i =? message_index message then 1%R else 0%R.
Proof.
  unfold valid_messages. intros Hm.
  repeat (apply elem_of_cons in Hm as [->|Hm]).
  5: by apply elem_of_nil in Hm.
  all: eexists; split; [reflexivity|].
  all: intros i Hi; destruct i as [|[|[|[|i]]]]; try lia.
  all: unfold prob, Cnorm2; simpl; solve_real.
Qed.

(** A run whose final state is certain gives one key. *)
Lemma run_certain c s qs cs k rng n :
  num_qubits c = 2 ->
  execute zero_state (data c) = Some (s, qs, cs) ->
  k < 4 ->
  (forall i, i < 4 -> prob s i = if i =? k then 1%R else 0%R) ->
  (forall i, (0 <= rng i < 1)%R) ->
  run c (Some (S n)) rng
  = Return {[ bitstring (num_clbits c) qs cs k := S n ]}.
Proof.
  intros Hnq Hex Hk Hp Hrng. unfold run. rewrite Hnq, Hex. simpl negb. cbv iota.
  f_equal. simpl default.
  rewrite <- tally_shots_const. apply tally_shots_ext.
  intros i _. rewrite (sample_certain s k) by auto. reflexivity.
Qed.



(** Cell 3 prints the state after the Bell preparation:
    sqrt 2 / 2 |00> + sqrt 2 / 2 |11>. *)
Lemma bell_state :
  fold_left (fun st g => apply_gate g st) bell_ops zero_state
  = mkState (mkC (sqrt 2 / 2) 0) C0 C0 (mkC (sqrt 2 / 2) 0).
Proof.
  assert (Hs : (sqrt 2 * sqrt 2 = 2)%R) by (apply sqrt_sqrt; lra).
  assert (Hh : (inv_sqrt2 = sqrt 2 / 2)%R).
  { unfold inv_sqrt2. apply (Rmult_eq_reg_l (sqrt 2)).
    - rewrite Rinv_r; [lra|]. intros E. rewrite E in Hs. lra.
    - intros E. rewrite E in Hs. lra. }
  simpl. unfold apply_cx, apply_h, build, C0; simpl. rewrite <- Hh.
  f_equal; apply C_eq; simpl; lra.
Qed.

(** The scenario of section 8 of the specification: the circuit the full
    program has built for message "11". *)
Example scenario_11_circuit :
  snd (full_program "11" (fun _ => 0%R) ∅) !! 1%positive
  = Some (mkCircuit 2 2 [HGate 1; CXGate 1 0; ZGate 1; XGate 1;
                         CXGate 1 0; HGate 1; Measure [0; 1] [0; 1]]).
Proof. reflexivity. Qed.

Example bitstring_of_index_2 : bitstring 2 [0; 1] [0; 1] 2 = "10".
Proof. reflexivity. Qed.

(** Without a measurement there are no counts. *)
Example execute_without_measure : execute zero_state bell_ops = None.
Proof. reflexivity. Qed.

(** On a circuit with one qubit only, qubit 1 is out of range. *)
Example encode_on_one_qubit :
  encode_message 1%positive "10" {[ 1%positive := mkCircuit 1 1 [] ]}
  = (Raise (CircuitError "Index out of range."),
     {[ 1%positive := mkCircuit 1 1 [] ]}).
Proof. reflexivity. Qed.

Example tally_two_keys :
  tally_shots 3 (fun i => if i =? 1 then "01" else "11")
  = {[ "11" := 2; "01" := 1 ]}.
Proof. vm_compute. reflexivity. Qed.

(** The decoding that the prose of cell 7 describes, with the roles of the
    two qubits exchanged, does not decode: message "01" comes out as "10". *)
Lemma prose_decoding_swaps_bits (rng : nat -> R) :
  (forall i, (0 <= rng i < 1)%R) ->
  run (extend decoding_ops_prose
         (extend (encoding_ops "01") (mkCircuit 2 2 bell_ops))) None rng
  = Return {[ "10" := default_shots ]}.
Proof.
  intros Hrng.
  change (run ?c None rng) with (run c (Some (S 1023)) rng).
  erewrite (run_certain _ _ [0; 1] [0; 1] 2);
    [reflexivity | reflexivity | reflexivity | lia | | exact Hrng].
  intros i Hi; destruct i as [|[|[|[|i]]]]; try lia;
    unfold prob, Cnorm2; simpl; solve_real.
Qed.

End NotebookFacts.

(* ===================================================================== *)
(** ** The properties of the specification *)
(* ===================================================================== *)

Module Properties.
Import Amplitude Gates Circuit Python Simulator Notebook.
Import GateFacts CountsFacts NotebookFacts.
Local Open Scope py_scope.

(** C1. For every valid message M among "00", "01", "10", "11", the full
    program (a fresh two-qubit circuit with the Bell preparation H on qubit 1
    and CNOT(1,0), then [encode_message] with M, then [decode_message])
    returns the counts table with the single entry M, holding all the shots,
    whatever the draws of the ideal sampler are. *)
Theorem superdense_roundtrip (message : string) (rng : nat -> R) (h : store) :
  message ∈ valid_messages ->
  (forall i, (0 <= rng i < 1)%R) ->
  exists h',
    full_program message rng h = (Return {[ message := default_shots ]}, h').
Proof.
  intros Hm Hrng.
  destruct (decoded_state message Hm) as (s & Hex & Hp).
  unfold full_program, bind. rewrite bell_circuit_ok.
  rewrite (encode_message_ok _ _ (mkCircuit 2 2 bell_ops))
    by (rewrite ?lookup_insert_eq; simpl; auto using valid_message_length).
  rewrite insert_insert_eq.
  rewrite (decode_message_ok _ _ (extend (encoding_ops message) (mkCircuit 2 2 bell_ops)))
    by (rewrite ?lookup_insert_eq; simpl; auto).
  eexists. f_equal.
  change (run ?c None rng) with (run c (Some (S 1023)) rng).
  rewrite (run_certain _ s [0; 1] [0; 1] (message_index message)); auto.
  - simpl num_clbits. rewrite bitstring_message by exact Hm. reflexivity.
  - apply message_index_lt.
Qed.

Lemma superdense_roundtrip_witness :
  exists h',
    full_program "11" (fun _ => 0%R) ∅ = (Return {[ "11" := default_shots ]}, h').
Proof.
  apply (superdense_roundtrip "11" (fun _ => 0%R) ∅).
  - unfold valid_messages. repeat constructor.
  - intros _. lra.
Defined.






(** C4, as written (Bob's qubit as control and Alice's as target, Hadamard
    on Bob's qubit), fails: on the Bell circuit the operations appended by
    [decode_message] are not those of the prose. *)
Lemma decode_message_prose_counterexample :
  snd (decode_message (fun _ => 0%R) 1%positive
         {[ 1%positive := mkCircuit 2 2 bell_ops ]}) !! 1%positive
  <> Some (extend decoding_ops_prose (mkCircuit 2 2 bell_ops)).
Proof.
  rewrite (decode_message_ok _ _ (mkCircuit 2 2 bell_ops))
    by (rewrite ?lookup_singleton_eq; simpl; auto).
  simpl. rewrite lookup_insert_eq. discriminate.
Qed.

(** C4, amended. [decode_message] appends, in this order, a CNOT with
    Alice's (received) qubit 1 as control and Bob's qubit 0 as target, a
    Hadamard on qubit 1, and a measurement binding qubit 0 to classical slot
    0 and qubit 1 to classical slot 1; it then simulates that circuit and
    returns the simulator's counts. *)
Theorem decode_message_appends (h : store) (qc : ref) (c : QuantumCircuit)
    (rng : nat -> R) :
  h !! qc = Some c -> 2 <= num_qubits c -> 2 <= num_clbits c ->
  let c' := extend [CXGate alice bob; HGate alice; Measure [0; 1] [0; 1]] c in
  decode_message rng qc h = (run c' None rng, <[qc := c']> h).
Proof.
  intros Hqc Hnq Hnc c'. apply decode_message_ok; assumption.
Qed.

Lemma decode_message_appends_witness :
  let c := mkCircuit 2 2 bell_ops in
  let c' := extend [CXGate alice bob; HGate alice; Measure [0; 1] [0; 1]] c in
  decode_message (fun _ => 0%R) 1%positive {[ 1%positive := c ]}
  = (run c' None (fun _ => 0%R), <[1%positive := c']> {[ 1%positive := c ]}).
Proof.
  intros c.
  apply (decode_message_appends {[ 1%positive := c ]} 1%positive c (fun _ => 0%R)).
  - reflexivity.
  - simpl. lia.
  - simpl. lia.
Defined.


(** C5. For every message whose length is not 2, [encode_message] fails with
    the length error before any gate is appended: the store, hence the
    circuit and its gate count, is the same after the failed call. *)
Theorem encode_message_rejects_length (h : store) (qc : ref) (message : string) :
  String.length message <> 2 ->
  encode_message qc message h = (Raise InvalidMessageLength, h)
  /\ gate_count <$> (snd (encode_message qc message h) !! qc)
     = gate_count <$> (h !! qc).
Proof.
  intros Hlen.
  assert (E : encode_message qc message h = (Raise InvalidMessageLength, h)).
  { unfold encode_message.
    destruct (String.length message =? 2) eqn:Hl.
    - apply Nat.eqb_eq in Hl. contradiction.
    - reflexivity. }
  split; [exact E|]. rewrite E. reflexivity.
Qed.

Lemma encode_message_rejects_length_witness :
  let h : store := {[ 1%positive := mkCircuit 2 2 bell_ops ]} in
  encode_message 1%positive "111" h = (Raise InvalidMessageLength, h)
  /\ gate_count <$> (snd (encode_message 1%positive "111" h) !! 1%positive)
     = gate_count <$> (h !! 1%positive).
Proof.
  intros h.
  apply (encode_message_rejects_length h 1%positive "111").
  simpl. lia.
Defined.

(** C6, as written, fails: the two-character message "ab" has no character
    among '0' and '1', and [encode_message] returns normally on it, with the
    circuit as it was. *)
Lemma encode_message_symbol_counterexample :
  String.length "ab" = 2
  /\ String.get 0 "ab" <> Some "0"%char /\ String.get 0 "ab" <> Some "1"%char
  /\ encode_message 1%positive "ab" {[ 1%positive := mkCircuit 2 2 bell_ops ]}
     = (Return None_, {[ 1%positive := mkCircuit 2 2 bell_ops ]}).
Proof.
  split; [reflexivity|]. split; [discriminate|]. split; [discriminate|].
  reflexivity.
Qed.

(** C6, amended. For every two-character message, whatever its characters,
    [encode_message] on a circuit that has qubit 1 raises nothing: it returns
    None after appending Z on qubit 1 when the first character is '1' and
    then X on qubit 1 when the second character is '1'; any other character
    selects no gate. *)
Theorem encode_message_any_symbols (h : store) (qc : ref) (c : QuantumCircuit)
    (message : string) :
  h !! qc = Some c -> 2 <= num_qubits c -> String.length message = 2 ->
  encode_message qc message h
  = (Return None_,
     <[qc := extend ((if char_is_1 message 0 then [ZGate 1] else [])
                     ++ (if char_is_1 message 1 then [XGate 1] else [])) c]> h).
Proof.
  intros Hqc Hnq Hlen. apply encode_message_ok; assumption.
Qed.

Lemma encode_message_any_symbols_witness :
  let c := mkCircuit 2 2 bell_ops in
  encode_message 1%positive "a1" {[ 1%positive := c ]}
  = (Return None_, <[1%positive := extend [XGate 1] c]> {[ 1%positive := c ]}).
Proof.
  intros c.
  apply (encode_message_any_symbols {[ 1%positive := c ]} 1%positive c "a1").
  - reflexivity.
  - simpl. lia.
  - reflexivity.
Defined.



(** C9. Applying CNOT twice with the same control and the same target gives
    back the amplitude vector, whatever the four complex amplitudes are. *)
Theorem cnot_twice (control target : nat) (s : StateVector) :
  control < 2 -> target < 2 -> control <> target ->
  apply_gate (CXGate control target) (apply_gate (CXGate control target) s) = s.
Proof. intros Hc Ht Hne. simpl. apply apply_cx_involutive; assumption. Qed.

Lemma cnot_twice_witness :
  let s := apply_gate (HGate 1) zero_state in
  apply_gate (CXGate 1 0) (apply_gate (CXGate 1 0) s) = s.
Proof.
  intros s. apply (cnot_twice 1 0 s); lia.
Defined.




(** C10. [encode_message] works on the caller's circuit object: a call that
    succeeds returns None, creates no object, leaves every other object as it
    was, and the object behind the caller's reference is the original
    circuit with the encoding gates appended. *)
Theorem encode_message_in_place (h h' : store) (qc : ref) (c : QuantumCircuit)
    (message : string) (r : PyNone) :
  h !! qc = Some c ->
  encode_message qc message h = (Return r, h') ->
  r = None_
  /\ dom h' = dom h
  /\ (forall l, l <> qc -> h' !! l = h !! l)
  /\ h' !! qc = Some (extend (encoding_ops message) c).
Proof.
  intros Hqc Hrun.
  assert (Hh' : h' = <[qc := extend (encoding_ops message) c]> h).
  { destruct (String.length message =? 2) eqn:Hlen.
    - apply Nat.eqb_eq in Hlen.
      destruct (1 <? num_qubits c) eqn:H1.
      + apply Nat.ltb_lt in H1.
        rewrite (encode_message_ok h qc c) in Hrun by (auto; lia).
        congruence.
      + revert Hrun. unfold encode_message, encoding_ops.
        rewrite Hlen. change (negb (2 =? 2)) with false. cbv iota.
        unfold bind, qc_z, qc_x, ret.
        destruct (char_is_1 message 0), (char_is_1 message 1);
          rewrite ?(qc_append_fail h qc c) by (simpl; auto);
          try discriminate.
        intros Hrun. assert (h = h') as <- by congruence. simpl.
        rewrite extend_nil, insert_id by exact Hqc.
        reflexivity.
    - unfold encode_message in Hrun. rewrite Hlen in Hrun. discriminate. }
  subst h'. split; [by destruct r|]. split; [|split].
  - apply dom_insert_lookup_L. rewrite Hqc. eauto.
  - intros l Hl. apply lookup_insert_ne. congruence.
  - apply lookup_insert_eq.
Qed.

Lemma encode_message_in_place_witness :
  let c := mkCircuit 2 2 bell_ops in
  let h : store := {[ 1%positive := c ]} in
  let h' : store := {[ 1%positive := extend [ZGate 1; XGate 1] c ]} in
  encode_message 1%positive "11" h = (Return None_, h')
  /\ None_ = None_
  /\ dom h' = dom h
  /\ (forall l, l <> 1%positive -> h' !! l = h !! l)
  /\ h' !! 1%positive = Some (extend (encoding_ops "11") c).
Proof.
  intros c h h'. split; [reflexivity|].
  apply (encode_message_in_place h h' 1%positive c "11" None_).
  - reflexivity.
  - reflexivity.
Defined.

End Properties.

(* ===================================================================== *)
(** ** Further lemmas: builder outcomes, sampling, table entries *)
(* ===================================================================== *)

Module MoreFacts.
Import Amplitude Gates Circuit Python Simulator Notebook.
Import GateFacts CountsFacts NotebookFacts.
Local Open Scope py_scope.

(** An append that raises has changed nothing. *)
Lemma qc_append_raise_unchanged (h h' : store) qc op e :
  qc_append qc op h = (Raise e, h') -> h' = h.
Proof.
  unfold qc_append, bind, deref, raise.
  destruct (h !! qc) as [c|]; [|congruence].
  destruct (wf_instruction _ _ op); congruence.
Qed.

(** An append that returns has found the object and an in-range operation. *)
Lemma qc_append_return (h h' : store) qc op r :
  qc_append qc op h = (Return r, h') ->
  exists c, h !! qc = Some c
    /\ wf_instruction (num_qubits c) (num_clbits c) op = true
    /\ h' = <[qc := append op c]> h.
Proof.
  unfold qc_append, bind, deref, raise.
  destruct (h !! qc) as [c|] eqn:Hqc; [|congruence].
  destruct (wf_instruction _ _ op) eqn:Hwf; [|congruence].
  intros [= _ <-]. eauto.
Qed.

(** The state before the measurement when two messages have been encoded
    one after the other: the basis state of their bitwise exclusive or. *)
Lemma decoded_state_xor m1 m2 :
  exists s,
    execute zero_state
      (bell_ops ++ encoding_ops m1 ++ encoding_ops m2 ++ decoding_ops)
    = Some (s, [0; 1], [0; 1])
    /\ forall i, i < 4 ->
         prob s i = if i =? Nat.lxor (message_index m1) (message_index m2)
                    then 1%R else 0%R.
Proof.
  unfold encoding_ops, message_index.
  destruct (char_is_1 m1 0), (char_is_1 m1 1),
           (char_is_1 m2 0), (char_is_1 m2 1).
  all: eexists; split; [reflexivity|].
  all: intros i Hi; destruct i as [|[|[|[|i]]]]; try lia.
  all: unfold prob, Cnorm2; simpl; solve_real.
Qed.

Lemma lxor_index_lt m1 m2 :
  Nat.lxor (message_index m1) (message_index m2) < 4.
Proof.
  unfold message_index.
  destruct (char_is_1 m1 0), (char_is_1 m1 1),
           (char_is_1 m2 0), (char_is_1 m2 1);
    apply Nat.ltb_lt; reflexivity.
Qed.

Lemma Cnorm2_nonneg a : (0 <= Cnorm2 a)%R.
Proof. unfold Cnorm2. nra. Qed.

Lemma prob_nonneg s i : (0 <= prob s i)%R.
Proof. apply Cnorm2_nonneg. Qed.

(** On a normalised state the sampler returns a basis index, and one whose
    probability is not zero. *)
Lemma sample_support (s : StateVector) (u : R) :
  norm2 s = 1%R -> (0 <= u < 1)%R ->
  sample s u < 4 /\ (0 < prob s (sample s u))%R.
Proof.
  intros Hn Hu. unfold norm2 in Hn. unfold sample.
  pose proof (prob_nonneg s 0) as P0. pose proof (prob_nonneg s 1) as P1.
  pose proof (prob_nonneg s 2) as P2. pose proof (prob_nonneg s 3) as P3.
  change (Cnorm2 (amp0 s)) with (prob s 0) in Hn.
  change (Cnorm2 (amp1 s)) with (prob s 1) in Hn.
  change (Cnorm2 (amp2 s)) with (prob s 2) in Hn.
  change (Cnorm2 (amp3 s)) with (prob s 3) in Hn.
  repeat (match goal with
          | |- context [Rlt_dec ?a ?b] => destruct (Rlt_dec a b)
          end); (split; [lia | lra]).
Qed.

Lemma tally_lookup key k (m : gmap string nat) :
  tally k m !! key
  = if decide (k = key) then Some (S (default 0 (m !! k))) else m !! key.
Proof. unfold tally. apply lookup_insert. Qed.

(** Every entry of the table counts at least one shot, and its key is the
    outcome of one of the shots. *)
Lemma tally_shots_lookup n f key v :
  tally_shots n f !! key = Some v ->
  1 <= v /\ exists i, i < n /\ f i = key.
Proof.
  revert v. induction n as [|n IH]; intros v; simpl.
  - rewrite lookup_empty. discriminate.
  - rewrite tally_lookup. case_decide as Hk.
    + intros [= <-]. split; [lia|]. exists n. split; [lia | exact Hk].
    + intros Hv. destruct (IH v Hv) as [Hge (i & Hi & Hf)].
      split; [exact Hge|]. exists i. split; [lia | exact Hf].
Qed.

Lemma length_store_bits k qs cs creg :
  length (store_bits k qs cs creg) = length creg.
Proof.
  revert cs creg. induction qs as [|q qs IH]; intros [|c cs] creg; simpl;
    try reflexivity.
  rewrite IH. apply length_insert.
Qed.

Lemma length_string_of_bits l : String.length (string_of_bits l) = length l.
Proof. induction l as [|b l IH]; simpl; [reflexivity | by rewrite IH]. Qed.

Lemma length_bitstring nc qs cs k : String.length (bitstring nc qs cs k) = nc.
Proof.
  unfold bitstring.
  rewrite length_string_of_bits, length_rev, length_store_bits.
  apply length_replicate.
Qed.

Lemma wf_gate_unitary nc g :
  wf_instruction 2 nc g = true -> is_measure g = false -> unitary_gate g = true.
Proof.
  unfold unitary_gate. destruct g; simpl; intros Hwf Hm; try discriminate; auto.
Qed.

Lemma evolve_reachable gates s :
  forallb unitary_gate gates = true -> reachable s -> reachable (evolve gates s).
Proof.
  unfold evolve.
  revert s. induction gates as [|g gates IH]; intros s Hg Hs; simpl in *.
  - exact Hs.
  - apply andb_prop in Hg as [Hg Hrest].
    apply IH; [exact Hrest|]. apply reach_gate; assumption.
Qed.

(** A valid circuit runs to its measurement, in a reachable state. *)
Lemma valid_circuit_execute c :
  valid_circuit c = true ->
  exists s qs cs,
    execute zero_state (data c) = Some (s, qs, cs) /\ reachable s.
Proof.
  unfold valid_circuit. intros Hv.
  apply andb_prop in Hv as [Hv Hshape]. apply andb_prop in Hv as [Hnq Hwf].
  apply Nat.eqb_eq in Hnq. rewrite Hnq in Hwf.
  destruct (rev (data c)) as [|[q|q|q|ct tg|qs cs] gates] eqn:Hrev;
    try discriminate.
  assert (Hdata : data c = rev gates ++ [Measure qs cs]).
  { rewrite <- (rev_involutive (data c)), Hrev. reflexivity. }
  rewrite Hdata in *. rewrite forallb_app in Hwf.
  apply andb_prop in Hwf as [Hwf _].
  rewrite forallb_forall in Hshape, Hwf.
  assert (Hu : forallb unitary_gate (rev gates) = true).
  { apply forallb_forall. intros g Hg.
    apply (wf_gate_unitary (num_clbits c)); [apply Hwf, Hg|].
    apply negb_true_iff, Hshape. apply in_rev. exact Hg. }
  eexists _, qs, cs. split.
  - apply execute_gates_then_measure.
    apply forallb_forall. intros g Hg. apply Hshape. apply in_rev. exact Hg.
  - apply evolve_reachable; [exact Hu | apply reach_init].
Qed.

(** The run of the decoded Bell circuit with one shot, used as a concrete
    table below. *)
Lemma run_bell_one_shot :
  run (extend decoding_ops (mkCircuit 2 2 bell_ops)) (Some 1) (fun _ => 0%R)
  = Return {[ "00" := 1 ]}.
Proof.
  erewrite (run_certain _ _ [0; 1] [0; 1] 0);
    [reflexivity | reflexivity | reflexivity | lia | | intros _; lra].
  intros i Hi; destruct i as [|[|[|[|i]]]]; try lia;
    unfold prob, Cnorm2; simpl; solve_real.
Qed.

End MoreFacts.

(* ===================================================================== *)
(** ** Further properties of the notebook's code *)
(* ===================================================================== *)

Module Extras.
Import Amplitude Gates Circuit Python Simulator Notebook.
Import GateFacts CountsFacts NotebookFacts MoreFacts.
Local Open Scope py_scope.

(** X1. [encode_message] is all or nothing: whenever it raises, whatever the
    exception (wrong length, or qubit 1 out of range), the store is as it
    was before the call, so no gate has been appended. *)
Theorem encode_message_raise_unchanged (h : store) (qc : ref)
    (message : string) (e : PyExc) :
  fst (encode_message qc message h) = Raise e ->
  snd (encode_message qc message h) = h.
Proof.
  unfold encode_message.
  destruct (negb (String.length message =? 2)); [reflexivity|].
  unfold bind, qc_z, qc_x, ret.
  destruct (char_is_1 message 0), (char_is_1 message 1).
  - destruct (qc_append qc (ZGate 1) h) as [[r1|e1] h1] eqn:E1.
    + apply qc_append_return in E1 as (c & Hqc & Hwf & ->).
      rewrite (qc_append_ok _ qc (append (ZGate 1) c))
        by (rewrite ?lookup_insert_eq; auto).
      discriminate.
    + apply qc_append_raise_unchanged in E1. intros _. exact E1.
  - destruct (qc_append qc (ZGate 1) h) as [[r1|e1] h1] eqn:E1; [discriminate|].
    apply qc_append_raise_unchanged in E1. intros _. exact E1.
  - destruct (qc_append qc (XGate 1) h) as [[r1|e1] h1] eqn:E1; [discriminate|].
    apply qc_append_raise_unchanged in E1. intros _. exact E1.
  - discriminate.
Qed.

Lemma encode_message_raise_unchanged_witness :
  let h : store := {[ 1%positive := mkCircuit 1 1 [] ]} in
  snd (encode_message 1%positive "11" h) = h.
Proof.
  intros h.
  apply (encode_message_raise_unchanged h 1%positive "11"
           (CircuitError "Index out of range.")).
  reflexivity.
Defined.

(** X2. On an existing circuit, [encode_message] succeeds exactly when the
    message has two characters and either the circuit has a qubit 1 or
    neither character is '1' (then no gate is needed). *)
Theorem encode_message_succeeds_iff (h : store) (qc : ref)
    (c : QuantumCircuit) (message : string) :
  h !! qc = Some c ->
  (exists h', encode_message qc message h = (Return None_, h'))
  <-> String.length message = 2
      /\ (2 <= num_qubits c
          \/ (char_is_1 message 0 = false /\ char_is_1 message 1 = false)).
Proof.
  intros Hqc. split.
  - intros [h' Hrun].
    destruct (String.length message =? 2) eqn:Hlen.
    2:{ unfold encode_message in Hrun. rewrite Hlen in Hrun. discriminate. }
    apply Nat.eqb_eq in Hlen. split; [exact Hlen|].
    destruct (1 <? num_qubits c) eqn:H1.
    + left. apply Nat.ltb_lt in H1. lia.
    + right. revert Hrun. unfold encode_message.
      rewrite Hlen. change (negb (2 =? 2)) with false. cbv iota.
      unfold bind, qc_z, qc_x, ret.
      destruct (char_is_1 message 0), (char_is_1 message 1);
        rewrite ?(qc_append_fail h qc c) by (simpl; auto);
        try discriminate.
      auto.
  - intros [Hlen [Hnq | [H0 H1]]].
    + eexists. apply (encode_message_ok h qc c); assumption.
    + exists h. unfold encode_message.
      rewrite Hlen, H0, H1. reflexivity.
Qed.

Lemma encode_message_succeeds_iff_witness :
  let c := mkCircuit 1 1 [] in
  let h : store := {[ 1%positive := c ]} in
  (exists h', encode_message 1%positive "a0" h = (Return None_, h'))
  <-> String.length "a0" = 2
      /\ (2 <= num_qubits c
          \/ (char_is_1 "a0" 0 = false /\ char_is_1 "a0" 1 = false)).
Proof.
  intros c h.
  apply (encode_message_succeeds_iff h 1%positive c "a0").
  reflexivity.
Defined.

(** X3. The full program decodes every two-character message, not only the
    four binary ones: a character other than '1' counts as '0', and all the
    shots fall on the bitstring so obtained. *)
Theorem full_program_any_symbols (message : string) (rng : nat -> R)
    (h : store) :
  String.length message = 2 ->
  (forall i, (0 <= rng i < 1)%R) ->
  exists h',
    full_program message rng h
    = (Return {[ bitstring 2 [0; 1] [0; 1] (message_index message)
                 := default_shots ]}, h').
Proof.
  intros Hl Hrng.
  destruct (decoded_state_xor message "") as (s & Hex & Hp).
  change (encoding_ops "") with (@nil Instruction) in Hex.
  change (message_index "") with 0 in Hp. rewrite Nat.lxor_0_r in Hp.
  unfold full_program, bind. rewrite bell_circuit_ok.
  rewrite (encode_message_ok _ _ (mkCircuit 2 2 bell_ops))
    by (rewrite ?lookup_insert_eq; simpl; auto).
  rewrite insert_insert_eq.
  rewrite (decode_message_ok _ _
             (extend (encoding_ops message) (mkCircuit 2 2 bell_ops)))
    by (rewrite ?lookup_insert_eq; simpl; auto).
  eexists. f_equal.
  change (run ?c None rng) with (run c (Some (S 1023)) rng).
  rewrite (run_certain _ s [0; 1] [0; 1] (message_index message)); auto.
  apply message_index_lt.
Qed.

Lemma full_program_any_symbols_witness :
  exists h',
    full_program "a1" (fun _ => 0%R) ∅ = (Return {[ "01" := default_shots ]}, h').
Proof.
  apply (full_program_any_symbols "a1" (fun _ => 0%R) ∅).
  - reflexivity.
  - intros _. lra.
Defined.

(** X4. Encodings accumulate on the circuit object: encoding two messages
    one after the other on the same Bell circuit and decoding gives all the
    shots on the bitwise exclusive or of the two messages. In particular
    encoding the same message twice decodes as "00". *)
Theorem encode_twice_xor (m1 m2 : string) (rng : nat -> R) (h : store) :
  String.length m1 = 2 -> String.length m2 = 2 ->
  (forall i, (0 <= rng i < 1)%R) ->
  exists h',
    (qc <- bell_circuit ;;
     encode_message qc m1 ;;
     encode_message qc m2 ;;
     decode_message rng qc) h
    = (Return {[ bitstring 2 [0; 1] [0; 1]
                   (Nat.lxor (message_index m1) (message_index m2))
                 := default_shots ]}, h').
Proof.
  intros Hl1 Hl2 Hrng.
  destruct (decoded_state_xor m1 m2) as (s & Hex & Hp).
  unfold bind. rewrite bell_circuit_ok.
  rewrite (encode_message_ok _ _ (mkCircuit 2 2 bell_ops))
    by (rewrite ?lookup_insert_eq; simpl; auto).
  rewrite insert_insert_eq.
  rewrite (encode_message_ok _ _
             (extend (encoding_ops m1) (mkCircuit 2 2 bell_ops)))
    by (rewrite ?lookup_insert_eq; simpl; auto).
  rewrite insert_insert_eq.
  rewrite (decode_message_ok _ _
             (extend (encoding_ops m2)
                (extend (encoding_ops m1) (mkCircuit 2 2 bell_ops))))
    by (rewrite ?lookup_insert_eq; simpl; auto).
  eexists. f_equal.
  change (run ?c None rng) with (run c (Some (S 1023)) rng).
  rewrite (run_certain _ s [0; 1] [0; 1]
             (Nat.lxor (message_index m1) (message_index m2))); auto.
  - unfold extend; cbn [data]. rewrite <- !app_assoc. exact Hex.
  - apply lxor_index_lt.
Qed.

Lemma encode_twice_xor_witness :
  exists h',
    (qc <- bell_circuit ;;
     encode_message qc "11" ;;
     encode_message qc "01" ;;
     decode_message (fun _ => 0%R) qc) ∅
    = (Return {[ "10" := default_shots ]}, h').
Proof.
  apply (encode_twice_xor "11" "01" (fun _ => 0%R) ∅).
  - reflexivity.
  - reflexivity.
  - intros _. lra.
Defined.

(** X5. Whatever the message, the full program allocates exactly one new
    circuit object, at a reference that was free, and leaves every object
    that was in the store as it was. *)
Theorem full_program_frame (message : string) (rng : nat -> R) (h : store) :
  let h' := snd (full_program message rng h) in
  h !! fresh (dom h) = None
  /\ dom h' = {[ fresh (dom h) ]} ∪ dom h
  /\ (forall l c, h !! l = Some c -> h' !! l = Some c).
Proof.
  assert (Hfresh : h !! fresh (dom h) = None).
  { apply not_elem_of_dom. apply is_fresh. }
  assert (Hh' : exists c', snd (full_program message rng h)
                           = <[fresh (dom h) := c']> h).
  { unfold full_program, bind. rewrite bell_circuit_ok.
    destruct (String.length message =? 2) eqn:Hlen.
    - apply Nat.eqb_eq in Hlen.
      rewrite (encode_message_ok _ _ (mkCircuit 2 2 bell_ops))
        by (rewrite ?lookup_insert_eq; simpl; auto).
      rewrite insert_insert_eq.
      rewrite (decode_message_ok _ _
                 (extend (encoding_ops message) (mkCircuit 2 2 bell_ops)))
        by (rewrite ?lookup_insert_eq; simpl; auto).
      rewrite insert_insert_eq.
      destruct (run _ None rng); simpl; eauto.
    - unfold encode_message. rewrite Hlen. simpl. eauto. }
  destruct Hh' as [c' Hh']. intros h'. subst h'. rewrite Hh'.
  split; [exact Hfresh|]. split.
  - apply dom_insert_L.
  - intros l c Hl. rewrite lookup_insert_ne; [exact Hl|].
    intros <-. congruence.
Qed.

(** X6. With a message whose length is not 2 the full program stops at the
    encoder: it raises the length error, [decode_message] is not run, and
    the new circuit holds the Bell preparation only. *)
Theorem full_program_rejects_length (message : string) (rng : nat -> R)
    (h : store) :
  String.length message <> 2 ->
  full_program message rng h
  = (Raise InvalidMessageLength, <[fresh (dom h) := mkCircuit 2 2 bell_ops]> h).
Proof.
  intros Hlen. unfold full_program, bind. rewrite bell_circuit_ok.
  unfold encode_message.
  destruct (String.length message =? 2) eqn:Hl.
  - apply Nat.eqb_eq in Hl. contradiction.
  - reflexivity.
Qed.

Lemma full_program_rejects_length_witness :
  full_program "1" (fun _ => 0%R) ∅
  = (Raise InvalidMessageLength, <[fresh (dom (∅ : store)) := mkCircuit 2 2 bell_ops]> ∅).
Proof.
  apply (full_program_rejects_length "1" (fun _ => 0%R) ∅).
  simpl. lia.
Defined.

(** X7. On a circuit with fewer than two qubits [decode_message] raises at
    its first append, with the store as it was. *)
Theorem decode_message_too_few_qubits (h : store) (qc : ref)
    (c : QuantumCircuit) (rng : nat -> R) :
  h !! qc = Some c -> num_qubits c < 2 ->
  decode_message rng qc h = (Raise (CircuitError "Index out of range."), h).
Proof.
  intros Hqc Hnq. unfold decode_message, bind, qc_cx.
  rewrite (qc_append_fail h qc c); [reflexivity | exact Hqc |].
  simpl. destruct (1 <? num_qubits c) eqn:H1; [|reflexivity].
  apply Nat.ltb_lt in H1. lia.
Qed.

Lemma decode_message_too_few_qubits_witness :
  let h : store := {[ 1%positive := mkCircuit 1 2 [] ]} in
  decode_message (fun _ => 0%R) 1%positive h
  = (Raise (CircuitError "Index out of range."), h).
Proof.
  intros h.
  apply (decode_message_too_few_qubits h 1%positive (mkCircuit 1 2 [])).
  - reflexivity.
  - simpl. lia.
Defined.

(** X8. [decode_message] is not all or nothing: on a circuit with two qubits
    but fewer than two classical bits the measurement is refused after the
    CNOT and the Hadamard have been appended, and they stay on the caller's
    circuit. *)
Theorem decode_message_too_few_clbits (h : store) (qc : ref)
    (c : QuantumCircuit) (rng : nat -> R) :
  h !! qc = Some c -> 2 <= num_qubits c -> num_clbits c < 2 ->
  decode_message rng qc h
  = (Raise (CircuitError "Index out of range."),
     <[qc := extend [CXGate 1 0; HGate 1] c]> h).
Proof.
  intros Hqc Hnq Hnc.
  assert (H1 : (1 <? num_qubits c) = true) by (apply Nat.ltb_lt; lia).
  assert (H0 : (0 <? num_qubits c) = true) by (apply Nat.ltb_lt; lia).
  assert (H1c : (1 <? num_clbits c) = false) by (apply Nat.ltb_ge; lia).
  unfold decode_message, bind, qc_cx, qc_h, qc_measure.
  rewrite (qc_append_ok h qc c) by (simpl; rewrite ?H1, ?H0; auto).
  rewrite (qc_append_ok _ qc (append (CXGate 1 0) c))
    by (simpl; rewrite ?lookup_insert_eq; auto).
  rewrite (qc_append_fail _ qc (append (HGate 1) (append (CXGate 1 0) c))).
  - rewrite !insert_insert_eq. unfold append, extend; simpl.
    rewrite <- !app_assoc. reflexivity.
  - rewrite !insert_insert_eq. apply lookup_insert_eq.
  - simpl. rewrite H1, H0, H1c. simpl. rewrite andb_false_r. reflexivity.
Qed.

Lemma decode_message_too_few_clbits_witness :
  let c := mkCircuit 2 1 bell_ops in
  let h : store := {[ 1%positive := c ]} in
  decode_message (fun _ => 0%R) 1%positive h
  = (Raise (CircuitError "Index out of range."),
     <[1%positive := extend [CXGate 1 0; HGate 1] c]> h).
Proof.
  intros c h.
  apply (decode_message_too_few_clbits h 1%positive c).
  - reflexivity.
  - simpl. lia.
  - simpl. lia.
Defined.



(** X10. The two gates of [encode_message] are self-inverse: X applied twice
    to the same qubit, or Z applied twice, gives back the amplitude vector. *)
Theorem pauli_twice (q : nat) (s : StateVector) :
  q < 2 ->
  apply_gate (XGate q) (apply_gate (XGate q) s) = s
  /\ apply_gate (ZGate q) (apply_gate (ZGate q) s) = s.
Proof.
  intros Hq. destruct s as [[r0 i0] [r1 i1] [r2 i2] [r3 i3]].
  qubit_cases q Hq; split; simpl; unfold apply_x, apply_z, build; simpl;
    solve_state.
Qed.

Lemma pauli_twice_witness :
  let s := evolve bell_ops zero_state in
  apply_gate (XGate 1) (apply_gate (XGate 1) s) = s
  /\ apply_gate (ZGate 1) (apply_gate (ZGate 1) s) = s.
Proof.
  intros s. apply (pauli_twice 1 s). lia.
Defined.




(** X13. The states Alice's encoding produces from the Bell pair for two
    different messages are orthogonal: this is what lets the decoder tell
    the four messages apart with certainty. *)
Theorem bell_states_orthogonal (m1 m2 : string) :
  m1 ∈ valid_messages -> m2 ∈ valid_messages -> m1 <> m2 ->
  inner (evolve (bell_ops ++ encoding_ops m1) zero_state)
        (evolve (bell_ops ++ encoding_ops m2) zero_state) = C0.
Proof.
  unfold valid_messages. intros H1 H2 Hne.
  repeat (apply elem_of_cons in H1 as [->|H1]);
    try (by apply elem_of_nil in H1);
  repeat (apply elem_of_cons in H2 as [->|H2]);
    try (by apply elem_of_nil in H2);
  try congruence;
  unfold evolve, inner, C0; simpl; apply C_eq; solve_real.
Qed.

Lemma bell_states_orthogonal_witness :
  inner (evolve (bell_ops ++ encoding_ops "01") zero_state)
        (evolve (bell_ops ++ encoding_ops "10") zero_state) = C0.
Proof.
  apply (bell_states_orthogonal "01" "10").
  - unfold valid_messages. repeat constructor.
  - unfold valid_messages. repeat constructor.
  - discriminate.
Defined.

(** X14. On a normalised state and a draw in [0,1) the sampler returns one
    of the four basis indices, and never one of probability zero. *)
Theorem sample_in_support (s : StateVector) (u : R) :
  norm2 s = 1%R -> (0 <= u < 1)%R ->
  sample s u < 4 /\ (0 < prob s (sample s u))%R.
Proof. apply sample_support. Qed.

Lemma sample_in_support_witness :
  sample zero_state 0 < 4 /\ (0 < prob zero_state (sample zero_state 0))%R.
Proof.
  apply (sample_in_support zero_state 0%R).
  - unfold norm2, Cnorm2. simpl. lra.
  - lra.
Defined.

(** X15. In the counts table of a valid circuit every entry counts at least
    one shot (outcomes that never occurred are absent, not present with 0)
    and every key has as many characters as the circuit has classical
    bits. *)
Theorem counts_entries (c : QuantumCircuit) (shots : option nat)
    (rng : nat -> R) (counts : gmap string nat) (key : string) (v : nat) :
  valid_circuit c = true ->
  run c shots rng = Return counts ->
  counts !! key = Some v ->
  1 <= v /\ String.length key = num_clbits c.
Proof.
  intros Hv Hrun Hkey.
  destruct (valid_circuit_execute c Hv) as (s & qs & cs & Hex & _).
  unfold valid_circuit in Hv.
  apply andb_prop in Hv as [Hv _]. apply andb_prop in Hv as [Hnq _].
  unfold run in Hrun. rewrite Hnq, Hex in Hrun. simpl in Hrun.
  injection Hrun as <-.
  apply tally_shots_lookup in Hkey as [Hge (i & _ & <-)].
  split; [exact Hge | apply length_bitstring].
Qed.

Lemma counts_entries_witness :
  1 <= 1
  /\ String.length "00"
     = num_clbits (extend decoding_ops (mkCircuit 2 2 bell_ops)).
Proof.
  apply (counts_entries (extend decoding_ops (mkCircuit 2 2 bell_ops))
           (Some 1) (fun _ => 0%R) {[ "00" := 1 ]} "00" 1).
  - reflexivity.
  - exact run_bell_one_shot.
  - reflexivity.
Defined.

(** X16. With draws in [0,1), every key of the counts table of a valid
    circuit is the bitstring of a basis state to which the final state
    vector gives a probability above zero. *)
Theorem counts_in_support (c : QuantumCircuit) (shots : option nat)
    (rng : nat -> R) (counts : gmap string nat) (key : string) (v : nat) :
  valid_circuit c = true ->
  (forall i, (0 <= rng i < 1)%R) ->
  run c shots rng = Return counts ->
  counts !! key = Some v ->
  exists s qs cs k,
    execute zero_state (data c) = Some (s, qs, cs)
    /\ k < 4 /\ (0 < prob s k)%R
    /\ key = bitstring (num_clbits c) qs cs k.
Proof.
  intros Hv Hrng Hrun Hkey.
  destruct (valid_circuit_execute c Hv) as (s & qs & cs & Hex & Hs).
  unfold valid_circuit in Hv.
  apply andb_prop in Hv as [Hv _]. apply andb_prop in Hv as [Hnq _].
  unfold run in Hrun. rewrite Hnq, Hex in Hrun. simpl in Hrun.
  injection Hrun as <-.
  apply tally_shots_lookup in Hkey as [_ (i & _ & <-)].
  destruct (sample_support s (rng i) (reachable_norm2 s Hs) (Hrng i))
    as [Hlt Hpos].
  exists s, qs, cs, (sample s (rng i)). auto.
Qed.

Lemma counts_in_support_witness :
  let c := extend decoding_ops (mkCircuit 2 2 bell_ops) in
  exists s qs cs k,
    execute zero_state (data c) = Some (s, qs, cs)
    /\ k < 4 /\ (0 < prob s k)%R
    /\ "00" = bitstring (num_clbits c) qs cs k.
Proof.
  intros c.
  apply (counts_in_support c (Some 1) (fun _ => 0%R) {[ "00" := 1 ]} "00" 1).
  - reflexivity.
  - intros _. lra.
  - exact run_bell_one_shot.
  - reflexivity.
Defined.

(** X17. Cell 3: the state vector of the Bell preparation is
    sqrt 2 / 2 |00> + sqrt 2 / 2 |11>, the value the notebook displays. *)
Theorem initial_state_is_bell (h : store) :
  fst (initial_state h)
  = Return (mkState (mkC (sqrt 2 / 2) 0) C0 C0 (mkC (sqrt 2 / 2) 0)).
Proof.
  unfold initial_state, bind. rewrite bell_circuit_ok.
  unfold Statevector, bind, deref, ret. rewrite lookup_insert_eq.
  cbn [fst data]. f_equal. apply bell_state.
Qed.

End Extras.
